(** * catapulta_Serrano_German.py: an elastic-band catapult simulator

    Shallow embedding of the module and the properties of its formula
    pipeline (stored energy, useful energy, launch velocity, range, mean
    over repeated trials).

    Numbers.  Python's [float] is embedded as the real numbers [R]: the
    arithmetic of the module is read as exact arithmetic, [math.sqrt],
    [math.sin] and [math.radians] as the real functions they approximate.
    Rounding, infinities and NaN are outside this model.  Python's [int]
    ([n_bands], the trial count) is [Z].

    Exceptions.  A method either returns a value or raises; [result]
    records which, with one constructor of [exn] per Python exception
    class that the module or the library functions it calls can raise.

    Objects.  [Projectile] and [BandSystem] are never mutated and are
    embedded by value.  A [Catapult] is mutated by [load] and [set_pull],
    which are state transformers.  Only the identity of the [CatapultArm]
    object matters to a property below, so arms live in a store and a
    [Catapult] holds the location of its arm. *)

From Stdlib Require Import Reals Lra Lia ZArith List String Bool.
Import ListNotations.
Open Scope R_scope.

(** ** Exceptions and results *)

Inductive exn : Type :=
| ValueError (msg : string)
| RuntimeError (msg : string)
| ZeroDivisionError (msg : string)
| StatisticsError (msg : string).

Inductive result (A : Type) : Type :=
| Ok (a : A)
| Raise (e : exn).

Arguments Ok {A} a.
Arguments Raise {A} e.

Definition bind {A B : Type} (m : result A) (k : A -> result B) : result B :=
  match m with
  | Ok a => k a
  | Raise e => Raise e
  end.

Notation "x <- m ;; k" := (bind m (fun x => k))
  (at level 61, m at next level, right associativity).

(** The two failure kinds of the module. *)
Definition is_ValueError {A : Type} (r : result A) : Prop :=
  exists msg, r = Raise (ValueError msg).

Definition is_RuntimeError {A : Type} (r : result A) : Prop :=
  exists msg, r = Raise (RuntimeError msg).

(** A default argument: [None] is the argument left out at the call. *)
Definition default {A : Type} (d : A) (arg : option A) : A :=
  match arg with
  | Some a => a
  | None => d
  end.

(** ** Comparisons on numbers, as booleans *)

Definition Rleb (x y : R) : bool := if Rle_dec x y then true else false.
Definition Rltb (x y : R) : bool := if Rlt_dec x y then true else false.

(** ** Library functions the module calls *)

(** [math.sqrt]: "math domain error" on a negative argument. *)
Definition math_sqrt (x : R) : result R :=
  if Rltb x 0 then Raise (ValueError "math domain error") else Ok (sqrt x).

(** [math.radians]. *)
Definition math_radians (x : R) : R := x * (PI / 180).

(** [math.sin]. *)
Definition math_sin (x : R) : R := sin x.

(** Python's [/] on floats. *)
Definition py_div (a b : R) : result R :=
  if Req_dec_T b 0 then Raise (ZeroDivisionError "float division by zero")
  else Ok (a / b).

(** [sum] of a list, left to right from 0. *)
Definition py_sum (data : list R) : R := fold_left Rplus data 0.

(** [statistics.mean]: fails on empty data, else the sum over the length. *)
Definition mean (data : list R) : result R :=
  match data with
  | [] => Raise (StatisticsError "mean requires at least one data point")
  | _ :: _ => Ok (py_sum data / INR (List.length data))
  end.

(** ** The module *)

(** [G = 9.81] *)
Definition G : R := 9.81.

(** *** Projectile *)

Record Projectile : Type := mkProjectile {
  mass : R;
  name : string
}.

Definition Projectile_init (mass_kg : R) (name : option string)
  : result Projectile :=
  if Rleb mass_kg 0 then Raise (ValueError "La masa debe ser positiva.")
  else Ok {| mass := mass_kg; name := default "proyectil blando"%string name |}.

(** *** BandSystem *)

Record BandSystem : Type := mkBandSystem {
  k_band : R;
  n_bands : Z
}.

Definition BandSystem_init (k_band : option R) (n_bands : option Z)
  : result BandSystem :=
  let k := default 200.0 k_band in
  let n := default 4%Z n_bands in
  if Rleb k 0 || (n <? 1)%Z then Raise (ValueError "k_band > 0 y n_bands >= 1")
  else Ok {| k_band := k; n_bands := n |}.

Definition K_total (self : BandSystem) : R :=
  k_band self * IZR (n_bands self).

(** *** CatapultArm *)

Record CatapultArm : Type := mkCatapultArm {
  length_of : R
}.

Definition CatapultArm_init (length_m : option R) : result CatapultArm :=
  let l := default 0.2 length_m in
  if Rleb l 0 then Raise (ValueError "La longitud del brazo debe ser positiva.")
  else Ok {| length_of := l |}.

(** The store of arm objects.  A location is an index into the store; an
    object keeps its location for as long as it lives. *)
Definition loc : Type := nat.
Definition store : Type := list CatapultArm.

Definition allocated (h : store) (l : loc) : Prop := (l < List.length h)%nat.

(** The expression [CatapultArm(length_m)]: validate, then allocate a new
    object.  A raising constructor allocates nothing. *)
Definition CatapultArm_new (length_m : option R) (h : store)
  : result loc * store :=
  match CatapultArm_init length_m with
  | Ok a => (Ok (List.length h), h ++ [a])
  | Raise e => (Raise e, h)
  end.

(** *** Catapult *)

Record Catapult : Type := mkCatapult {
  bands : BandSystem;
  arm : loc;
  eficiencia : R;
  loaded_projectile : option Projectile;
  pull_distance : R
}.

(** What executing the [def __init__] statement of [Catapult] leaves
    behind: the default of [arm] is the expression [CatapultArm()], which
    Python evaluates when the [def] is executed and stores in the function
    object. *)
Record Catapult_class : Type := mkCatapult_class {
  arm_default : loc
}.

Definition Catapult_def (h : store) : result Catapult_class * store :=
  match CatapultArm_new None h with
  | (Ok l, h') => (Ok {| arm_default := l |}, h')
  | (Raise e, h') => (Raise e, h')
  end.

(** [Catapult.__init__].  It evaluates no constructor call of its own, so
    the store is not touched. *)
Definition Catapult_init (cls : Catapult_class) (band_system : BandSystem)
    (arm : option loc) (eficiencia : option R) : result Catapult :=
  let arm := default (arm_default cls) arm in
  let eficiencia := default 0.35 eficiencia in
  if negb (Rltb 0 eficiencia && Rleb eficiencia 1)
  then Raise (ValueError "eficiencia debe estar en (0,1].")
  else Ok {| bands := band_system;
             arm := arm;
             eficiencia := eficiencia;
             loaded_projectile := None;
             pull_distance := 0.0 |}.

(** The mutators return the outcome of the call and the object after it. *)
Definition load (projectile : Projectile) (self : Catapult)
  : result unit * Catapult :=
  (Ok tt, {| bands := bands self;
             arm := arm self;
             eficiencia := eficiencia self;
             loaded_projectile := Some projectile;
             pull_distance := pull_distance self |}).

Definition set_pull (distance_m : R) (self : Catapult)
  : result unit * Catapult :=
  if Rltb distance_m 0
  then (Raise (ValueError "La distancia de tracción debe ser >= 0"), self)
  else (Ok tt, {| bands := bands self;
                  arm := arm self;
                  eficiencia := eficiencia self;
                  loaded_projectile := loaded_projectile self;
                  pull_distance := distance_m |}).

Definition stored_energy (self : Catapult) : R :=
  let K := K_total (bands self) in
  let x := pull_distance self in
  0.5 * K * x * x.

Definition launch_velocity (self : Catapult) : result R :=
  match loaded_projectile self with
  | None => Raise (RuntimeError "No hay proyectil cargado.")
  | Some p =>
      let E_stored := stored_energy self in
      let E_useful := eficiencia self * E_stored in
      let m := mass p in
      if Rleb E_useful 0 then Ok 0.0
      else q <- py_div (2.0 * E_useful) m ;; math_sqrt q
  end.

Definition range_at_angle (self : Catapult) (angle_deg : R) : result R :=
  v <- launch_velocity self ;;
  let theta := math_radians angle_deg in
  py_div (v * v * math_sin (2 * theta)) G.

(** The dictionary [simulate_launch] returns, one field per key. *)
Record Launch : Type := mkLaunch {
  proyectil : option string;
  masa_kg : option R;
  pull_m : R;
  K_total_N_per_m : R;
  energia_almacenada_J : R;
  energia_util_J : R;
  velocidad_m_s : R;
  angulo_deg : R;
  alcance_m : R
}.

Definition simulate_launch (self : Catapult) (angle_deg : R) : result Launch :=
  v <- launch_velocity self ;;
  R' <- range_at_angle self angle_deg ;;
  Ok {| proyectil := match loaded_projectile self with
                     | Some p => Some (name p)
                     | None => None
                     end;
        masa_kg := match loaded_projectile self with
                   | Some p => Some (mass p)
                   | None => None
                   end;
        pull_m := pull_distance self;
        K_total_N_per_m := K_total (bands self);
        energia_almacenada_J := stored_energy self;
        energia_util_J := eficiencia self * stored_energy self;
        velocidad_m_s := v;
        angulo_deg := angle_deg;
        alcance_m := R' |}.

(** *** Experiment *)

(** An experiment keeps a reference to its catapult; [cat] is the object
    behind that reference when a method of the experiment is called. *)
Record Experiment : Type := mkExperiment {
  cat : Catapult
}.

(** The dictionary [run_trials] returns. *)
Record Trials : Type := mkTrials {
  n_of : Z;
  angle_deg_of : R;
  distancias : list R;
  media_m : R
}.

(** The body of [for _ in range(n)], [k] iterations left, [results] the
    list built so far.  No call in the body writes to the catapult, so
    every iteration reads the same object. *)
Fixpoint run_trials_loop (self : Experiment) (angle_deg : R) (k : nat)
    (results : list R) : result (list R) :=
  match k with
  | O => Ok results
  | S k' =>
      res <- simulate_launch (cat self) angle_deg ;;
      run_trials_loop self angle_deg k' (results ++ [alcance_m res])
  end.

Definition run_trials (self : Experiment) (angle_deg : R) (n : option Z)
  : result Trials :=
  let n := default 5%Z n in
  if (n <? 1)%Z then Raise (ValueError "n debe ser >= 1")
  else
    results <- run_trials_loop self angle_deg (Z.to_nat n) [] ;;
    media <- mean results ;;
    Ok {| n_of := n;
          angle_deg_of := angle_deg;
          distancias := results;
          media_m := media |}.

(** ** Running the module

    Importing the module executes its [class] and [def] statements from
    an empty store.  The only one that allocates is the [def __init__] of
    [Catapult], through the default of [arm]. *)
Definition module_exec : result Catapult_class * store := Catapult_def [].

(** The objects the [__main__] block builds: a 5 g projectile, four bands
    of 200 N/m, efficiency 0.35, pulled back 3 cm.  The driver passes an
    arm of its own, allocated after the default one. *)

Definition proj : Projectile := {| mass := 0.005; name := "pompon 5g" |}.

Definition main_bands : BandSystem := {| k_band := 200.0; n_bands := 4 |}.

Definition main_cat : Catapult :=
  {| bands := main_bands;
     arm := 1%nat;
     eficiencia := 0.35;
     loaded_projectile := Some proj;
     pull_distance := 0.03 |}.

(** What [Catapult(bands)] and [Catapult(bands, eficiencia=e)] return once
    the module has run: no projectile, no pull, and the arm at location 0. *)
Definition bare_cat (e : R) : Catapult :=
  {| bands := main_bands;
     arm := 0%nat;
     eficiencia := e;
     loaded_projectile := None;
     pull_distance := 0.0 |}.

(** The [__main__] block without its [print] calls: the catapult it
    builds and the two dictionaries it prints, or the first exception. *)
Definition main (cls : Catapult_class) (h : store)
  : result (Catapult * Launch * Trials) * store :=
  match Projectile_init 0.005 (Some "pompon 5g"%string) with
  | Raise e => (Raise e, h)
  | Ok proj =>
  match BandSystem_init (Some 200.0) (Some 4%Z) with
  | Raise e => (Raise e, h)
  | Ok bands =>
  match CatapultArm_new (Some 0.18) h with
  | (Raise e, h) => (Raise e, h)
  | (Ok arm, h) =>
  match Catapult_init cls bands (Some arm) (Some 0.35) with
  | Raise e => (Raise e, h)
  | Ok cat0 =>
  match load proj cat0 with
  | (Raise e, _) => (Raise e, h)
  | (Ok _, cat1) =>
  match set_pull 0.03 cat1 with
  | (Raise e, _) => (Raise e, h)
  | (Ok _, cat2) =>
      (sim <- simulate_launch cat2 45.0 ;;
       summary <- run_trials {| cat := cat2 |} 45.0 (Some 5%Z) ;;
       Ok (cat2, sim, summary), h)
  end end end end end end.

(** ** Validity and reachability *)

(** What the constructors and [set_pull] check, as one predicate on the
    object. *)
Record valid_catapult (c : Catapult) : Prop := mk_valid {
  valid_k_band : 0 < k_band (bands c);
  valid_n_bands : (1 <= n_bands (bands c))%Z;
  valid_eficiencia : 0 < eficiencia c <= 1;
  valid_pull : 0 <= pull_distance c;
  valid_mass : forall p, loaded_projectile c = Some p -> 0 < mass p
}.


(** ** Basic facts *)

Lemma Rleb_spec (x y : R) : reflect (x <= y) (Rleb x y).
Proof. unfold Rleb. destruct (Rle_dec x y); constructor; assumption. Qed.

Lemma Rltb_spec (x y : R) : reflect (x < y) (Rltb x y).
Proof. unfold Rltb. destruct (Rlt_dec x y); constructor; assumption. Qed.

Lemma Rleb_true (x y : R) : x <= y -> Rleb x y = true.
Proof. intros H. destruct (Rleb_spec x y); [reflexivity | contradiction]. Qed.

Lemma Rleb_false (x y : R) : y < x -> Rleb x y = false.
Proof. intros H. destruct (Rleb_spec x y); [lra | reflexivity]. Qed.

Lemma Rltb_true (x y : R) : x < y -> Rltb x y = true.
Proof. intros H. destruct (Rltb_spec x y); [reflexivity | contradiction]. Qed.

Lemma Rltb_false (x y : R) : y <= x -> Rltb x y = false.
Proof. intros H. destruct (Rltb_spec x y); [lra | reflexivity]. Qed.

Lemma G_pos : 0 < G.
Proof. unfold G. lra. Qed.

Lemma py_div_ok (a b : R) : b <> 0 -> py_div a b = Ok (a / b).
Proof.
  intros Hb. unfold py_div.
  destruct (Req_dec_T b 0) as [E | _]; [contradiction | reflexivity].
Qed.

Lemma math_sqrt_ok (x : R) : 0 <= x -> math_sqrt x = Ok (sqrt x).
Proof. intros Hx. unfold math_sqrt. rewrite Rltb_false by exact Hx. reflexivity. Qed.

Lemma K_total_pos (b : BandSystem) :
  0 < k_band b -> (1 <= n_bands b)%Z -> 0 < K_total b.
Proof.
  intros Hk Hn. unfold K_total.
  apply Rmult_lt_0_compat; [exact Hk |].
  apply IZR_lt. lia.
Qed.

Lemma stored_energy_nonneg (c : Catapult) :
  0 < K_total (bands c) -> 0 <= stored_energy c.
Proof.
  intros HK. unfold stored_energy.
  pose proof (Rle_0_sqr (pull_distance c)) as Hsq. unfold Rsqr in Hsq.
  replace (0.5 * K_total (bands c) * pull_distance c * pull_distance c)
    with (0.5 * K_total (bands c) * (pull_distance c * pull_distance c)) by ring.
  apply Rmult_le_pos; [lra | exact Hsq].
Qed.


(** The constructors establish what they check. *)



Lemma Catapult_init_ok cls bs a e c :
  Catapult_init cls bs a e = Ok c ->
  bands c = bs /\ arm c = default (arm_default cls) a /\
  0 < eficiencia c <= 1 /\ loaded_projectile c = None /\ pull_distance c = 0.
Proof.
  unfold Catapult_init.
  destruct (Rltb_spec 0 (default 0.35 e)) as [H0 | H0]; [| discriminate].
  destruct (Rleb_spec (default 0.35 e) 1) as [H1 | H1]; [| discriminate].
  simpl. intros E. injection E as <-. simpl.
  repeat split; try assumption. lra.
Qed.




Lemma main_cat_valid : valid_catapult main_cat.
Proof.
  constructor; simpl; try lra; try lia.
  intros p E. injection E as <-. simpl. lra.
Qed.

(** ** Launch velocity *)

Section Loaded.

Variable c : Catapult.
Variable p : Projectile.
Hypothesis Hload : loaded_projectile c = Some p.

(** With a projectile loaded, [launch_velocity] is its second half. *)
Lemma launch_velocity_loaded :
  launch_velocity c =
    if Rleb (eficiencia c * stored_energy c) 0 then Ok 0.0
    else q <- py_div (2.0 * (eficiencia c * stored_energy c)) (mass p) ;;
         math_sqrt q.
Proof. unfold launch_velocity. rewrite Hload. reflexivity. Qed.

Hypothesis Hvalid : valid_catapult c.

Lemma valid_K_total : 0 < K_total (bands c).
Proof. destruct Hvalid. apply K_total_pos; assumption. Qed.

Lemma valid_useful_nonneg : 0 <= eficiencia c * stored_energy c.
Proof.
  destruct Hvalid as [_ _ [He _] _ _].
  apply Rmult_le_pos; [lra |].
  apply stored_energy_nonneg, valid_K_total.
Qed.

Lemma valid_mass_pos : 0 < mass p.
Proof. destruct Hvalid as [_ _ _ _ Hm]. apply Hm, Hload. Qed.

(** The number handed to [math.sqrt] when the guard does not fire. *)
Lemma valid_sqrt_arg_nonneg :
  0 <= 2.0 * (eficiencia c * stored_energy c) / mass p.
Proof.
  pose proof valid_useful_nonneg as Hu. pose proof valid_mass_pos as Hm.
  apply Rmult_le_pos; [lra |].
  apply Rlt_le, Rinv_0_lt_compat, Hm.
Qed.

(** On a valid object the call returns, and what it returns is the
    square root of that number in both branches. *)
Lemma launch_velocity_valid :
  launch_velocity c =
    Ok (sqrt (2.0 * (eficiencia c * stored_energy c) / mass p)).
Proof.
  rewrite launch_velocity_loaded.
  pose proof valid_useful_nonneg as Hu. pose proof valid_mass_pos as Hm.
  destruct (Rleb_spec (eficiencia c * stored_energy c) 0) as [H0 | H0].
  - assert (E : eficiencia c * stored_energy c = 0) by lra.
    rewrite E. f_equal.
    replace (2.0 * 0 / mass p) with 0 by (field; lra).
    rewrite sqrt_0. lra.
  - rewrite py_div_ok by lra. simpl.
    apply math_sqrt_ok, valid_sqrt_arg_nonneg.
Qed.

Lemma range_at_angle_valid (angle_deg : R) :
  range_at_angle c angle_deg =
    Ok (2.0 * (eficiencia c * stored_energy c) / mass p
        * sin (2 * math_radians angle_deg) / G).
Proof.
  unfold range_at_angle. rewrite launch_velocity_valid. simpl.
  rewrite py_div_ok by (pose proof G_pos; lra).
  unfold math_sin. rewrite sqrt_sqrt by apply valid_sqrt_arg_nonneg.
  reflexivity.
Qed.

Lemma simulate_launch_valid (angle_deg : R) :
  exists res, simulate_launch c angle_deg = Ok res /\
    range_at_angle c angle_deg = Ok (alcance_m res).
Proof.
  unfold simulate_launch.
  rewrite launch_velocity_valid, (range_at_angle_valid angle_deg). simpl.
  eexists. split; reflexivity.
Qed.

End Loaded.

(** What [launch_velocity] can raise. *)
Lemma launch_velocity_RuntimeError (c : Catapult) :
  is_RuntimeError (launch_velocity c) <-> loaded_projectile c = None.
Proof.
  unfold launch_velocity, is_RuntimeError. split.
  - intros [msg H]. destruct (loaded_projectile c) as [p |]; [| reflexivity].
    exfalso. revert H. cbv zeta.
    destruct (Rleb _ 0); [discriminate |].
    unfold py_div. destruct (Req_dec_T (mass p) 0); simpl; [discriminate |].
    unfold math_sqrt. destruct (Rltb _ 0); discriminate.
  - intros ->. eexists. reflexivity.
Qed.

Lemma bind_RuntimeError {A B : Type} (m : result A) (k : A -> result B) :
  (forall a, ~ is_RuntimeError (k a)) ->
  is_RuntimeError (bind m k) <-> is_RuntimeError m.
Proof.
  intros Hk. destruct m as [a | e]; simpl.
  - split.
    + intros H. destruct (Hk a H).
    + intros [msg H]. discriminate.
  - split; intros [msg H]; injection H as ->; exists msg; reflexivity.
Qed.

Lemma py_div_not_RuntimeError (a b : R) : ~ is_RuntimeError (py_div a b).
Proof.
  unfold py_div. intros [msg H].
  destruct (Req_dec_T b 0); discriminate.
Qed.

Lemma range_at_angle_RuntimeError (c : Catapult) (angle_deg : R) :
  is_RuntimeError (range_at_angle c angle_deg) <-> loaded_projectile c = None.
Proof.
  unfold range_at_angle.
  rewrite bind_RuntimeError by (intros v; apply py_div_not_RuntimeError).
  apply launch_velocity_RuntimeError.
Qed.

Lemma simulate_launch_RuntimeError (c : Catapult) (angle_deg : R) :
  is_RuntimeError (simulate_launch c angle_deg) <-> loaded_projectile c = None.
Proof.
  unfold simulate_launch. split.
  - intros H. destruct (launch_velocity c) as [v |] eqn:Ev.
    + simpl in H. rewrite bind_RuntimeError in H.
      * apply (range_at_angle_RuntimeError c angle_deg), H.
      * intros r [msg E]. discriminate.
    + apply launch_velocity_RuntimeError. rewrite Ev.
      destruct H as [msg H]. simpl in H. injection H as ->.
      exists msg. reflexivity.
  - intros H. apply launch_velocity_RuntimeError in H as [msg E].
    rewrite E. simpl. eexists. reflexivity.
Qed.

Lemma RuntimeError_not_ValueError {A : Type} (r : result A) :
  is_RuntimeError r -> ~ is_ValueError r.
Proof. intros [m1 E1] [m2 E2]. rewrite E1 in E2. discriminate. Qed.

(** ** Repeated trials *)

Lemma py_sum_repeat_from (r : R) (k : nat) (a : R) :
  fold_left Rplus (repeat r k) a = a + INR k * r.
Proof.
  revert a. induction k as [| k IH]; intros a.
  - simpl. ring.
  - change (repeat r (S k)) with (r :: repeat r k).
    cbn [fold_left]. rewrite IH, S_INR. ring.
Qed.

Lemma mean_repeat (r : R) (k : nat) : mean (repeat r (S k)) = Ok r.
Proof.
  change (mean (repeat r (S k)))
    with (Ok (py_sum (repeat r (S k)) / INR (List.length (repeat r (S k))))).
  f_equal. unfold py_sum.
  rewrite py_sum_repeat_from, repeat_length.
  pose proof (lt_0_INR (S k) (Nat.lt_0_succ k)) as Hk.
  field. lra.
Qed.

(** Every iteration appends the range of the same launch. *)
Lemma run_trials_loop_ok (self : Experiment) (angle_deg : R) (res : Launch) :
  simulate_launch (cat self) angle_deg = Ok res ->
  forall (k : nat) (results : list R),
    run_trials_loop self angle_deg k results =
      Ok (results ++ repeat (alcance_m res) k).
Proof.
  intros Hres. induction k as [| k IH]; intros results.
  - simpl. rewrite app_nil_r. reflexivity.
  - cbn [run_trials_loop]. rewrite Hres. cbn [bind].
    rewrite IH, <- app_assoc. reflexivity.
Qed.

(** ** The store *)

Lemma CatapultArm_new_default (h : store) :
  CatapultArm_new None h = (Ok (List.length h), h ++ [{| length_of := 0.2 |}]).
Proof.
  unfold CatapultArm_new, CatapultArm_init. simpl.
  rewrite Rleb_false by lra. reflexivity.
Qed.

Lemma Catapult_def_ok (h h' : store) (cls : Catapult_class) :
  Catapult_def h = (Ok cls, h') ->
  arm_default cls = List.length h /\ h' = h ++ [{| length_of := 0.2 |}].
Proof.
  unfold Catapult_def. rewrite CatapultArm_new_default.
  intros E. injection E as <- <-. split; reflexivity.
Qed.

(** ** The driver's numbers *)

Example main_stored_energy : stored_energy main_cat = 0.36.
Proof. unfold stored_energy, K_total. simpl. lra. Qed.

Example main_useful_energy : eficiencia main_cat * stored_energy main_cat = 0.126.
Proof. rewrite main_stored_energy. simpl. lra. Qed.

Example main_launch_velocity : launch_velocity main_cat = Ok (sqrt 50.4).
Proof.
  rewrite (launch_velocity_valid main_cat proj eq_refl main_cat_valid).
  rewrite main_useful_energy. do 2 f_equal. simpl. lra.
Qed.

Example main_range_45 : range_at_angle main_cat 45.0 = Ok (50.4 / 9.81).
Proof.
  rewrite (range_at_angle_valid main_cat proj eq_refl main_cat_valid).
  rewrite main_useful_energy. f_equal.
  unfold math_radians. replace 45.0 with 45 by lra.
  replace (2 * (45 * (PI / 180))) with (PI / 2) by field.
  rewrite sin_PI2. unfold G. simpl. lra.
Qed.

(** ** The properties *)



(** C2.  [launch_velocity()], [range_at_angle(angle)] and
    [simulate_launch(angle)] raise [RuntimeError] exactly when no
    projectile is loaded, and a [RuntimeError] is never a [ValueError],
    the class the validation failures use. *)
Theorem no_projectile_RuntimeError (c : Catapult) (angle_deg : R) :
  (is_RuntimeError (launch_velocity c) <-> loaded_projectile c = None) /\
  (is_RuntimeError (range_at_angle c angle_deg)
     <-> loaded_projectile c = None) /\
  (is_RuntimeError (simulate_launch c angle_deg)
     <-> loaded_projectile c = None) /\
  (forall (A : Type) (r : result A),
     ~ (is_RuntimeError r /\ is_ValueError r)).
Proof.
  split; [apply launch_velocity_RuntimeError |].
  split; [apply range_at_angle_RuntimeError |].
  split; [apply simulate_launch_RuntimeError |].
  intros A r [Hr Hv]. exact (RuntimeError_not_ValueError r Hr Hv).
Qed.










(** C8, as the code has it.  A catapult built without an [arm] argument
    holds the one arm that was allocated when the [def] of [__init__] was
    executed: the object is new to the store at that moment, holds the
    default length 0.2, is already allocated when the constructor is
    called, and is the arm of every catapult built that way. *)
Theorem default_arm_shared (h0 h1 : store) (cls : Catapult_class)
    (bs1 bs2 : BandSystem) (e1 e2 : option R) (c1 c2 : Catapult) :
  Catapult_def h0 = (Ok cls, h1) ->
  Catapult_init cls bs1 None e1 = Ok c1 ->
  Catapult_init cls bs2 None e2 = Ok c2 ->
  arm c1 = arm_default cls /\
  arm c2 = arm c1 /\
  ~ allocated h0 (arm c1) /\
  allocated h1 (arm c1) /\
  nth_error h1 (arm c1) = Some {| length_of := 0.2 |}.
Proof.
  intros Hd H1 H2.
  apply Catapult_def_ok in Hd as [El ->].
  apply Catapult_init_ok in H1 as (_ & A1 & _).
  apply Catapult_init_ok in H2 as (_ & A2 & _).
  simpl in A1, A2. rewrite A1, A2, El. unfold allocated.
  repeat split.
  - lia.
  - rewrite length_app. simpl. lia.
  - rewrite nth_error_app2 by lia. rewrite Nat.sub_diag. reflexivity.
Qed.

(** C8, where the claim fails: after the module has run, [Catapult(bands)]
    and [Catapult(bands, eficiencia=1)] hold the same arm object, and that
    object was in the store before either call. *)
Lemma default_arm_not_fresh :
  module_exec = (Ok {| arm_default := 0%nat |}, [{| length_of := 0.2 |}]) /\
  Catapult_init {| arm_default := 0%nat |} main_bands None None
    = Ok (bare_cat 0.35) /\
  Catapult_init {| arm_default := 0%nat |} main_bands None (Some 1)
    = Ok (bare_cat 1) /\
  allocated [{| length_of := 0.2 |}] (arm (bare_cat 0.35)) /\
  arm (bare_cat 0.35) = arm (bare_cat 1).
Proof.
  split; [| split; [| split; [| split]]].
  - unfold module_exec, Catapult_def.
    rewrite CatapultArm_new_default. reflexivity.
  - unfold Catapult_init, bare_cat. simpl.
    rewrite Rltb_true by lra. rewrite Rleb_true by lra. reflexivity.
  - unfold Catapult_init, bare_cat. simpl.
    rewrite Rltb_true by lra. rewrite Rleb_true by lra. reflexivity.
  - unfold allocated. simpl. lia.
  - reflexivity.
Qed.

Lemma default_arm_shared_witness :
  arm (bare_cat 0.35) = arm_default {| arm_default := 0%nat |} /\
  arm (bare_cat 1) = arm (bare_cat 0.35) /\
  ~ allocated [] (arm (bare_cat 0.35)) /\
  allocated [{| length_of := 0.2 |}] (arm (bare_cat 0.35)) /\
  nth_error [{| length_of := 0.2 |}] (arm (bare_cat 0.35))
    = Some {| length_of := 0.2 |}.
Proof.
  apply (default_arm_shared [] [{| length_of := 0.2 |}]
           {| arm_default := 0%nat |} main_bands main_bands None (Some 1)).
  - unfold Catapult_def. rewrite CatapultArm_new_default. reflexivity.
  - unfold Catapult_init, bare_cat. simpl.
    rewrite Rltb_true by lra. rewrite Rleb_true by lra. reflexivity.
  - unfold Catapult_init, bare_cat. simpl.
    rewrite Rltb_true by lra. rewrite Rleb_true by lra. reflexivity.
Defined.



(** C10.  When [simulate_launch(angle)] returns, the "proyectil" and
    "masa_kg" entries of the report are the name and the mass of the
    loaded projectile, not [None]. *)
Theorem simulate_launch_report_projectile (c : Catapult) (angle_deg : R)
    (res : Launch) :
  simulate_launch c angle_deg = Ok res ->
  proyectil res <> None /\
  masa_kg res <> None /\
  exists p, loaded_projectile c = Some p /\
            proyectil res = Some (name p) /\
            masa_kg res = Some (mass p).
Proof.
  intros H.
  destruct (loaded_projectile c) as [p |] eqn:Hl.
  - unfold simulate_launch in H. rewrite Hl in H.
    destruct (launch_velocity c) as [v |]; [| discriminate].
    destruct (range_at_angle c angle_deg) as [r |]; [| discriminate].
    simpl in H. injection H as <-. simpl.
    repeat split; try discriminate.
    exists p. repeat split.
  - assert (E : is_RuntimeError (simulate_launch c angle_deg))
      by (apply simulate_launch_RuntimeError, Hl).
    destruct E as [msg E]. rewrite E in H. discriminate.
Qed.

Lemma simulate_launch_report_projectile_witness :
  exists res : Launch,
    simulate_launch main_cat 45.0 = Ok res /\
    proyectil res <> None /\
    masa_kg res <> None /\
    exists p, loaded_projectile main_cat = Some p /\
              proyectil res = Some (name p) /\
              masa_kg res = Some (mass p).
Proof.
  destruct (simulate_launch_valid main_cat proj eq_refl main_cat_valid 45.0)
    as (res & Hres & _).
  exists res. split; [exact Hres |].
  apply (simulate_launch_report_projectile main_cat 45.0 res Hres).
Defined.

(** ** Further properties: the constructors and the store *)

(** The driver runs to its end on the store the module leaves, and the
    catapult it has built by then is [main_cat]. *)
Example main_runs :
  exists (sim : Launch) (summary : Trials),
    main {| arm_default := 0%nat |} [{| length_of := 0.2 |}] =
      (Ok (main_cat, sim, summary),
       [{| length_of := 0.2 |}; {| length_of := 0.18 |}]).
Proof.
  destruct (simulate_launch_valid main_cat proj eq_refl main_cat_valid 45.0)
    as (sim & Hsim & Hr).
  exists sim.
  eexists.
  unfold main, Projectile_init, BandSystem_init, CatapultArm_new,
    CatapultArm_init, Catapult_init, load, set_pull. simpl.
  rewrite (Rleb_false 0.005 0) by lra.
  rewrite (Rleb_false 200.0 0) by lra.
  rewrite (Rleb_false 0.18 0) by lra.
  rewrite (Rltb_true 0 0.35) by lra.
  rewrite (Rleb_true 0.35 1) by lra.
  rewrite (Rltb_false 0.03 0) by lra. simpl.
  fold proj. fold main_bands. fold main_cat.
  rewrite Hsim. cbn [bind].
  unfold run_trials. simpl default. cbn [Z.ltb Z.compare Pos.compare Pos.compare_cont].
  rewrite (run_trials_loop_ok {| cat := main_cat |} 45.0 sim Hsim). cbn [bind].
  change (Z.to_nat 5) with 5%nat. cbn [app]. rewrite mean_repeat. cbn [bind].
  reflexivity.
Qed.

(** X1.  [Projectile(mass_kg, name)] raises [ValueError] exactly when
    [mass_kg <= 0]; otherwise it returns the projectile with that mass
    and that name, "proyectil blando" when no name is given. *)
Theorem Projectile_init_spec (mass_kg : R) (nm : option string) :
  (is_ValueError (Projectile_init mass_kg nm) <-> mass_kg <= 0) /\
  (forall p : Projectile,
     Projectile_init mass_kg nm = Ok p <->
     0 < mass_kg /\
     p = {| mass := mass_kg;
            name := default "proyectil blando"%string nm |}).
Proof.
  unfold Projectile_init, is_ValueError.
  destruct (Rleb_spec mass_kg 0) as [H | H]; split.
  - split; [intros _; exact H | intros _; eexists; reflexivity].
  - intros p. split; [discriminate | intros [Hm _]; lra].
  - split; [intros [msg E]; discriminate | intros Hm; contradiction].
  - intros p. split.
    + intros E. injection E as <-. split; [lra | reflexivity].
    + intros [_ ->]. reflexivity.
Qed.


(** X3.  The expression [CatapultArm(length_m)], with 0.2 for a length
    left out, raises [ValueError] exactly when the length is [<= 0], and
    then no object is added to the store.  Otherwise the arm it returns is
    a new object holding that length, and every object that was in the
    store is still there unchanged. *)
Theorem CatapultArm_new_spec (length_m : option R) (h : store) :
  (is_ValueError (fst (CatapultArm_new length_m h)) <->
   default 0.2 length_m <= 0) /\
  (is_ValueError (fst (CatapultArm_new length_m h)) ->
   snd (CatapultArm_new length_m h) = h) /\
  (forall a : loc,
     fst (CatapultArm_new length_m h) = Ok a ->
     ~ allocated h a /\
     allocated (snd (CatapultArm_new length_m h)) a /\
     nth_error (snd (CatapultArm_new length_m h)) a =
       Some {| length_of := default 0.2 length_m |} /\
     (forall b : loc, allocated h b ->
        nth_error (snd (CatapultArm_new length_m h)) b = nth_error h b)).
Proof.
  unfold CatapultArm_new, CatapultArm_init, is_ValueError, allocated.
  cbv zeta.
  destruct (Rleb_spec (default 0.2 length_m) 0) as [H | H]; simpl.
  - split; [| split].
    + split; [intros _; exact H | intros _; eexists; reflexivity].
    + reflexivity.
    + intros a E. discriminate.
  - split; [| split].
    + split; [intros [msg E]; discriminate | intros Hl; contradiction].
    + intros [msg E]. discriminate.
    + intros a E. injection E as <-.
      split; [lia |]. split; [rewrite length_app; simpl; lia |].
      split.
      * rewrite nth_error_app2 by lia. rewrite Nat.sub_diag. reflexivity.
      * intros b Hb. apply nth_error_app1. exact Hb.
Qed.


(** X5.  An arm built at the call, as in [Catapult(bands, CatapultArm())],
    is not shared: the catapult holds exactly that new object, which is
    not the default arm and was in no earlier store; and two arms built
    one after the other are different objects. *)
Theorem explicit_arm_fresh (cls : Catapult_class) (h h1 h2 : store)
    (l1 l2 : option R) (a1 a2 : loc) (bs : BandSystem) (e : option R)
    (c : Catapult) :
  allocated h (arm_default cls) ->
  CatapultArm_new l1 h = (Ok a1, h1) ->
  CatapultArm_new l2 h1 = (Ok a2, h2) ->
  Catapult_init cls bs (Some a1) e = Ok c ->
  arm c = a1 /\
  arm c <> arm_default cls /\
  ~ allocated h (arm c) /\
  allocated h1 (arm c) /\
  a2 <> a1.
Proof.
  intros Hd N1 N2 Hc.
  apply Catapult_init_ok in Hc as (_ & Ea & _). simpl in Ea.
  unfold CatapultArm_new in N1, N2. unfold allocated in *.
  destruct (CatapultArm_init l1) as [x1 |]; [| discriminate].
  destruct (CatapultArm_init l2) as [x2 |]; [| discriminate].
  injection N1 as <- <-. injection N2 as <- _.
  rewrite Ea, length_app. simpl.
  repeat split; lia.
Qed.

Lemma explicit_arm_fresh_witness :
  arm {| bands := main_bands; arm := 1%nat; eficiencia := 0.35;
         loaded_projectile := None; pull_distance := 0.0 |} = 1%nat /\
  arm {| bands := main_bands; arm := 1%nat; eficiencia := 0.35;
         loaded_projectile := None; pull_distance := 0.0 |}
    <> arm_default {| arm_default := 0%nat |} /\
  ~ allocated [{| length_of := 0.2 |}]
      (arm {| bands := main_bands; arm := 1%nat; eficiencia := 0.35;
              loaded_projectile := None; pull_distance := 0.0 |}) /\
  allocated [{| length_of := 0.2 |}; {| length_of := 0.18 |}]
    (arm {| bands := main_bands; arm := 1%nat; eficiencia := 0.35;
            loaded_projectile := None; pull_distance := 0.0 |}) /\
  2%nat <> 1%nat.
Proof.
  apply (explicit_arm_fresh {| arm_default := 0%nat |}
           [{| length_of := 0.2 |}]
           [{| length_of := 0.2 |}; {| length_of := 0.18 |}]
           [{| length_of := 0.2 |}; {| length_of := 0.18 |};
            {| length_of := 0.2 |}]
           (Some 0.18) None 1%nat 2%nat main_bands (Some 0.35)).
  - unfold allocated. simpl. lia.
  - unfold CatapultArm_new, CatapultArm_init. simpl.
    rewrite Rleb_false by lra. reflexivity.
  - unfold CatapultArm_new, CatapultArm_init. simpl.
    rewrite Rleb_false by lra. reflexivity.
  - unfold Catapult_init. simpl.
    rewrite Rltb_true by lra. rewrite Rleb_true by lra. reflexivity.
Defined.

(** ** Further properties: loading and pulling *)


Lemma set_pull_valid (c : Catapult) (d : R) :
  valid_catapult c -> valid_catapult (snd (set_pull d c)).
Proof.
  intros Hv. unfold set_pull.
  destruct (Rltb_spec d 0) as [H | H]; simpl; [exact Hv |].
  destruct Hv as [Hk Hn He Hx Hm]. constructor; simpl; try assumption. lra.
Qed.

(** X6.  [load(projectile)] never raises; afterwards the catapult holds
    that projectile and is otherwise as before, so its stored energy is
    the same.  A second [load] replaces the first projectile, and [load]
    and [set_pull] can be called in either order, also when [set_pull]
    raises. *)
Theorem load_spec (p q : Projectile) (d : R) (c : Catapult) :
  fst (load p c) = Ok tt /\
  loaded_projectile (snd (load p c)) = Some p /\
  bands (snd (load p c)) = bands c /\
  arm (snd (load p c)) = arm c /\
  eficiencia (snd (load p c)) = eficiencia c /\
  pull_distance (snd (load p c)) = pull_distance c /\
  stored_energy (snd (load p c)) = stored_energy c /\
  snd (load q (snd (load p c))) = snd (load q c) /\
  snd (set_pull d (snd (load p c))) = snd (load p (snd (set_pull d c))) /\
  fst (set_pull d (snd (load p c))) = fst (set_pull d c).
Proof.
  unfold load, set_pull, stored_energy. simpl.
  destruct (Rltb d 0); simpl; repeat split.
Qed.

(** X7.  Of two calls of [set_pull] the later one that is accepted
    decides: a second call with a distance [>= 0] gives the catapult that
    this call alone gives, and a second call with a negative distance
    raises and keeps what the first call left. *)
Theorem set_pull_twice (d1 d2 : R) (c : Catapult) :
  (0 <= d2 /\
   fst (set_pull d2 (snd (set_pull d1 c))) = Ok tt /\
   snd (set_pull d2 (snd (set_pull d1 c))) = snd (set_pull d2 c)) \/
  (d2 < 0 /\
   is_ValueError (fst (set_pull d2 (snd (set_pull d1 c)))) /\
   snd (set_pull d2 (snd (set_pull d1 c))) = snd (set_pull d1 c)).
Proof.
  destruct (Rltb_spec d2 0) as [H2 | H2].
  - right. split; [exact H2 |].
    unfold set_pull at 1 3. rewrite (Rltb_true d2 0) by exact H2.
    simpl. split; [eexists |]; reflexivity.
  - left. split; [lra |].
    unfold set_pull. rewrite (Rltb_false d2 0) by lra.
    destruct (Rltb d1 0); split; reflexivity.
Qed.



(** ** Further properties: velocity and range *)











(** ** Further properties: reports, trials and failures *)

Lemma launch_velocity_nonneg (c : Catapult) (v : R) :
  launch_velocity c = Ok v -> 0 <= v.
Proof.
  unfold launch_velocity.
  destruct (loaded_projectile c) as [p |]; [| discriminate]. cbv zeta.
  destruct (Rleb _ 0).
  - intros E. injection E as <-. lra.
  - unfold py_div. destruct (Req_dec_T (mass p) 0); [discriminate |]. simpl.
    unfold math_sqrt. destruct (Rltb _ 0); [discriminate |].
    intros E. injection E as <-. apply sqrt_pos.
Qed.

Lemma range_of_velocity (c : Catapult) (angle_deg v : R) :
  launch_velocity c = Ok v ->
  range_at_angle c angle_deg =
    Ok (v * v * sin (2 * math_radians angle_deg) / G).
Proof.
  intros Hv. unfold range_at_angle. rewrite Hv. simpl.
  apply py_div_ok. pose proof G_pos. lra.
Qed.



(** X15.  A report that [simulate_launch] returns agrees with the single
    queries on the same catapult: its velocity and range are what
    [launch_velocity] and [range_at_angle] return, its pull, stiffness and
    stored energy are the catapult's, its useful energy is the efficiency
    times its stored energy, its angle is the one asked for, its velocity
    is not negative and its range is [v^2 * sin(2 theta) / G] for that
    velocity. *)
Theorem simulate_launch_report_consistent (c : Catapult) (angle_deg : R)
    (res : Launch) :
  simulate_launch c angle_deg = Ok res ->
  launch_velocity c = Ok (velocidad_m_s res) /\
  range_at_angle c angle_deg = Ok (alcance_m res) /\
  pull_m res = pull_distance c /\
  K_total_N_per_m res = K_total (bands c) /\
  energia_almacenada_J res = stored_energy c /\
  energia_util_J res = eficiencia c * energia_almacenada_J res /\
  angulo_deg res = angle_deg /\
  0 <= velocidad_m_s res /\
  alcance_m res =
    velocidad_m_s res * velocidad_m_s res
    * sin (2 * math_radians angle_deg) / G.
Proof.
  intros H.
  destruct (launch_velocity c) as [v | e] eqn:Hv.
  - pose proof (launch_velocity_nonneg c v Hv) as Hn.
    unfold simulate_launch in H.
    rewrite Hv, (range_of_velocity c angle_deg v Hv) in H. simpl in H.
    injection H as <-. simpl.
    rewrite (range_of_velocity c angle_deg v Hv).
    repeat split. exact Hn.
  - unfold simulate_launch in H. rewrite Hv in H. discriminate.
Qed.

Lemma simulate_launch_report_consistent_witness :
  exists res : Launch,
    simulate_launch main_cat 45.0 = Ok res /\
    launch_velocity main_cat = Ok (velocidad_m_s res) /\
    range_at_angle main_cat 45.0 = Ok (alcance_m res) /\
    pull_m res = pull_distance main_cat /\
    K_total_N_per_m res = K_total (bands main_cat) /\
    energia_almacenada_J res = stored_energy main_cat /\
    energia_util_J res = eficiencia main_cat * energia_almacenada_J res /\
    angulo_deg res = 45.0 /\
    0 <= velocidad_m_s res /\
    alcance_m res =
      velocidad_m_s res * velocidad_m_s res
      * sin (2 * math_radians 45.0) / G.
Proof.
  destruct (simulate_launch_valid main_cat proj eq_refl main_cat_valid 45.0)
    as (res & Hres & _).
  exists res. split; [exact Hres |].
  apply (simulate_launch_report_consistent main_cat 45.0 res Hres).
Defined.

Lemma run_trials_loop_raise (self : Experiment) (angle_deg : R) (ex : exn) :
  simulate_launch (cat self) angle_deg = Raise ex ->
  forall (k : nat) (results : list R),
    run_trials_loop self angle_deg (S k) results = Raise ex.
Proof. intros H k results. cbn [run_trials_loop]. rewrite H. reflexivity. Qed.

(** X16.  What [run_trials(angle_deg, n)] does on any experiment, with 5
    for a count left out.  A count below 1 raises [ValueError] before the
    catapult is looked at.  Otherwise, if a launch at that angle raises,
    [run_trials] raises the same exception; and if it returns, [run_trials]
    returns the count, the angle, that launch's range repeated [n] times
    and the same range as the mean. *)
Theorem run_trials_cases (self : Experiment) (angle_deg : R)
    (n : option Z) :
  ((default 5 n < 1)%Z /\
   run_trials self angle_deg n = Raise (ValueError "n debe ser >= 1")) \/
  ((1 <= default 5 n)%Z /\
   exists ex : exn,
     simulate_launch (cat self) angle_deg = Raise ex /\
     run_trials self angle_deg n = Raise ex) \/
  ((1 <= default 5 n)%Z /\
   exists res : Launch,
     simulate_launch (cat self) angle_deg = Ok res /\
     run_trials self angle_deg n =
       Ok {| n_of := default 5%Z n;
             angle_deg_of := angle_deg;
             distancias := repeat (alcance_m res) (Z.to_nat (default 5%Z n));
             media_m := alcance_m res |}).
Proof.
  unfold run_trials. cbv zeta.
  destruct (Z.ltb_spec (default 5%Z n) 1) as [Hn | Hn].
  - left. split; [exact Hn | reflexivity].
  - right.
    destruct (Z.to_nat (default 5%Z n)) as [| k] eqn:Ek; [lia |].
    destruct (simulate_launch (cat self) angle_deg) as [res | ex] eqn:Hs.
    + right. split; [exact Hn |]. exists res. split; [reflexivity |].
      rewrite (run_trials_loop_ok self angle_deg res Hs). cbn [bind app].
      rewrite mean_repeat. reflexivity.
    + left. split; [exact Hn |]. exists ex. split; [reflexivity |].
      rewrite (run_trials_loop_raise self angle_deg ex Hs). reflexivity.
Qed.


